(** * rhino-backend: the FastAPI gateway of [api/index.py]

    A shallow embedding of the module [api/index.py]: the start-up code that
    reads [GEMINI_API_KEY] and configures the Gemini client, and the three
    route handlers [read_root], [generate_content_endpoint] and [read_item].

    Python values are a small inductive type, dictionaries are finite maps
    with string keys, and the effects of the module (the process environment,
    the calls made into [google.generativeai], what is printed, the call to
    [uvicorn.run], raised exceptions) are threaded through an explicit
    state-and-exception monad over a [World]. *)

From Stdlib Require Import ZArith Ascii String DecimalString DecimalZ DecimalPos.
From stdpp Require Import base option strings list gmap.

Local Open Scope Z_scope.
Local Open Scope string_scope.

(** ** Python values *)

(** The values the module handles: [None], [int] and [str]. *)
Inductive pyval : Type :=
| PyNone
| PyInt (n : Z)
| PyStr (s : string).

#[global] Instance pyval_eq_dec : EqDecision pyval.
Proof. solve_decision. Defined.

(** Truth value testing, as used by [if not api_key] and [if query_param]:
    [None], [0] and the empty string are false, everything else is true. *)
Definition py_truthy (v : pyval) : bool :=
  match v with
  | PyNone => false
  | PyInt n => negb (Z.eqb n 0)
  | PyStr s => negb (String.eqb s "")
  end.

(** [str(n)] for an [int], which is also what the f-string field
    [{item_id}] renders: decimal digits, a leading ["-"] for negatives, no
    leading zeros. *)
Definition py_str_int (n : Z) : string :=
  NilZero.string_of_int (Z.to_int n).

(** An exception instance, as far as the module observes one: the name of its
    class, whether it is an instance of [Exception] (what [except Exception]
    tests; [KeyboardInterrupt], [SystemExit] and other direct subclasses of
    [BaseException] are not), and the result of [str(e)]. *)
Record PyExc : Type := mkExc {
  exc_class : string;
  exc_is_Exception : bool;
  exc_str : string
}.

Definition ValueError (msg : string) : PyExc :=
  {| exc_class := "ValueError"; exc_is_Exception := true; exc_str := msg |}.

(** [SystemExit(1)]: a [BaseException] that is not an [Exception]. *)
Definition SystemExit : PyExc :=
  {| exc_class := "SystemExit"; exc_is_Exception := false; exc_str := "1" |}.

(** ** The world the module runs in *)

(** The calls the module makes into [google.generativeai]. *)
Inductive GenaiCall : Type :=
| Call_configure (api_key : pyval)
| Call_GenerativeModel (model_name : string)
| Call_generate_content (model_name : string) (prompt : string).

(** One recorded call of [uvicorn.run(app, host=..., port=..., reload=...)]. *)
Record UvicornRun : Type := mkUvicornRun {
  run_host : string;
  run_port : Z;
  run_reload : bool
}.

Record World : Type := mkWorld {
  os_environ : gmap string string;      (* os.environ *)
  dotenv_file : gmap string string;     (* the entries of the .env file, empty without one *)
  genai_api_key : option pyval;         (* the key genai.configure stored, if any *)
  genai_calls : list GenaiCall;         (* calls into google.generativeai, oldest first *)
  stdout : list string;                 (* lines printed, oldest first *)
  uvicorn_runs : list UvicornRun        (* calls of uvicorn.run, oldest first *)
}.

Definition set_os_environ (env : gmap string string) (w : World) : World :=
  mkWorld env (dotenv_file w) (genai_api_key w) (genai_calls w) (stdout w)
          (uvicorn_runs w).

Definition set_genai_api_key (k : option pyval) (w : World) : World :=
  mkWorld (os_environ w) (dotenv_file w) k (genai_calls w) (stdout w)
          (uvicorn_runs w).

Definition log_genai_call (c : GenaiCall) (w : World) : World :=
  mkWorld (os_environ w) (dotenv_file w) (genai_api_key w)
          (genai_calls w ++ [c]) (stdout w) (uvicorn_runs w).

Definition log_stdout (line : string) (w : World) : World :=
  mkWorld (os_environ w) (dotenv_file w) (genai_api_key w) (genai_calls w)
          (stdout w ++ [line]) (uvicorn_runs w).

Definition log_uvicorn_run (r : UvicornRun) (w : World) : World :=
  mkWorld (os_environ w) (dotenv_file w) (genai_api_key w) (genai_calls w)
          (stdout w) (uvicorn_runs w ++ [r]).

(** ** State and exceptions *)

Inductive Outcome (A : Type) : Type :=
| Returned (a : A)
| Raised (e : PyExc).
Arguments Returned {A} a.
Arguments Raised {A} e.

(** A Python computation: from a world to an outcome and the world it leaves. *)
Definition M (A : Type) : Type := World -> Outcome A * World.

Definition ret {A} (a : A) : M A := fun w => (Returned a, w).

Definition raise {A} (e : PyExc) : M A := fun w => (Raised e, w).

Definition bind {A B} (m : M A) (k : A -> M B) : M B :=
  fun w =>
    match m w with
    | (Returned a, w') => k a w'
    | (Raised e, w') => (Raised e, w')
    end.

(** [try: body  except Exception as e: handler e]. An exception that is not
    an instance of [Exception] is not caught. *)
Definition try_except_Exception {A} (body : M A) (handler : PyExc -> M A) : M A :=
  fun w =>
    match body w with
    | (Returned a, w') => (Returned a, w')
    | (Raised e, w') =>
        if exc_is_Exception e then handler e w' else (Raised e, w')
    end.

Declare Scope py_scope.
Delimit Scope py_scope with py.
Notation "'let!' x ':=' c 'in' k" := (bind c (fun x => k))
  (at level 10, x binder, c at level 100, k at level 200) : py_scope.
Notation "c ';;;' k" := (bind c (fun _ => k))
  (at level 100, k at level 200, right associativity) : py_scope.
Local Open Scope py_scope.

(** ** Library calls of the module *)

(** [print(line)]. *)
Definition print (line : string) : M unit :=
  fun w => (Returned tt, log_stdout line w).

(** [load_dotenv()] with its defaults: every entry of the .env file whose
    name is not yet in [os.environ] is added, entries already there are kept. *)
Definition load_dotenv : M unit :=
  fun w => (Returned tt, set_os_environ (os_environ w ∪ dotenv_file w) w).

(** [os.environ.get(name)]: the value, or [None] when the name is not set. *)
Definition os_environ_get (name : string) : M pyval :=
  fun w =>
    (Returned (match os_environ w !! name with
               | Some v => PyStr v
               | None => PyNone
               end), w).

(** [genai.configure(api_key=k)] stores the key in the library's
    process-wide state. *)
Definition genai_configure (k : pyval) : M unit :=
  fun w => (Returned tt, set_genai_api_key (Some k) (log_genai_call (Call_configure k) w)).

(** [uvicorn.run(app, host=h, port=p, reload=r)], called with the
    application object as the module does. With [reload] on, uvicorn
    accepts the application only as an import string: it logs a warning and
    leaves through [sys.exit(1)], that is, it raises [SystemExit(1)] before
    any socket is bound. With [reload] off it serves until it is shut down
    and then returns. *)
Definition uvicorn_run (h : string) (p : Z) (r : bool) : M unit :=
  fun w =>
    let w' := log_uvicorn_run (mkUvicornRun h p r) w in
    if r then (Raised SystemExit, w') else (Returned tt, w').

(** ** Start-up: the module body *)

Definition GEMINI_API_KEY : string := "GEMINI_API_KEY".

Definition missing_key_message : string :=
  "GEMINI_API_KEY environment variable not set. Please create a .env file and add your key.".

(** The credential part of the module body: [api_key = os.environ.get(..)]
    followed by [if not api_key: print; raise ValueError  else: configure; print]. *)
Definition configure_gemini : M unit :=
  let! api_key := os_environ_get GEMINI_API_KEY in
  if negb (py_truthy api_key) then
    print "Error: GEMINI_API_KEY environment variable not set." ;;;
    raise (ValueError missing_key_message)
  else
    genai_configure api_key ;;;
    print "Gemini API is configured successfully.".

(** The statements of the module in order, for a module run under the name
    [dunder_name] ([__name__]); the route decorators only register handlers. *)
Definition module_body (dunder_name : string) : M unit :=
  load_dotenv ;;;
  configure_gemini ;;;
  if String.eqb dunder_name "__main__" then
    uvicorn_run "127.0.0.1" 8000 true
  else
    ret tt.

(** ** Responses *)

(** [JSONResponse(content=..., status_code=...)]; the status code defaults to
    200. The content is a dictionary with string keys. *)
Record JSONResponse : Type := mkJSONResponse {
  content : gmap string pyval;
  status_code : Z
}.

(** ** The upstream library *)

(** The object [generate_content] returns. Reading its [text] property
    either gives the generated text or raises. *)
Record GenerateContentResponse : Type := mkGenerateContentResponse {
  text : Outcome string
}.

(** A [genai.GenerativeModel] instance: it remembers the model it names. *)
Record GenerativeModel : Type := mkGenerativeModel {
  model_name : string
}.

(** The behaviour of [google.generativeai], which the module does not
    control: whether constructing a model raises, and what
    [generate_content] returns or raises. Both may depend on every call made
    into the library so far. *)
Record Genai : Type := mkGenai {
  GenerativeModel_init : list GenaiCall -> string -> option PyExc;
  generate_content : list GenaiCall -> GenerativeModel -> string ->
                     Outcome GenerateContentResponse
}.

(** The body of a POST /generate request. *)
Record PromptRequest : Type := mkPromptRequest {
  prompt : string
}.

Section Handlers.

Variable genai : Genai.

(** [genai.GenerativeModel(name)]. *)
Definition genai_GenerativeModel (name : string) : M GenerativeModel :=
  fun w =>
    let w' := log_genai_call (Call_GenerativeModel name) w in
    match GenerativeModel_init genai (genai_calls w) name with
    | Some e => (Raised e, w')
    | None => (Returned (mkGenerativeModel name), w')
    end.

(** [model.generate_content(p)]. *)
Definition model_generate_content (model : GenerativeModel) (p : string)
  : M GenerateContentResponse :=
  fun w =>
    (generate_content genai (genai_calls w) model p,
     log_genai_call (Call_generate_content (model_name model) p) w).

(** [response.text]. *)
Definition response_text (response : GenerateContentResponse) : M string :=
  fun w => (text response, w).

(** [read_root]: the handler of GET /. *)
Definition read_root : M (gmap string pyval) :=
  ret {[ "message" := PyStr "Hello from FastAPI Backend! Gemini is ready." ]}.

(** The [try] block of [generate_content_endpoint]. *)
Definition generate_content_try (request_body : PromptRequest) : M JSONResponse :=
  let prompt := prompt request_body in
  let! model := genai_GenerativeModel "gemini-2.5-flash" in
  let! response := model_generate_content model prompt in
  let! generated_text := response_text response in
  ret (mkJSONResponse {[ "text" := PyStr generated_text ]} 200).

(** [generate_content_endpoint]: the handler of POST /generate. *)
Definition generate_content_endpoint (request_body : PromptRequest) : M JSONResponse :=
  try_except_Exception
    (generate_content_try request_body)
    (fun e => ret (mkJSONResponse {[ "error" := PyStr (exc_str e) ]} 500)).

(** [read_item]: the handler of GET /items/{item_id}. [query_param] is [None]
    when the query string does not carry it. *)
Definition read_item (item_id : Z) (query_param : pyval) : M (gmap string pyval) :=
  let item_data : gmap string pyval :=
    {[ "item_id" := PyInt item_id;
       "description" := PyStr ("This is item number " +:+ py_str_int item_id) ]} in
  let item_data :=
    if py_truthy query_param then <[ "query_param" := query_param ]> item_data
    else item_data in
  ret item_data.

End Handlers.

(** ** The framework layer in front of the handlers *)

(** A decoded JSON request body. *)
#[warnings="-register-all"]
Inductive json : Type :=
| JNull
| JBool (b : bool)
| JNumber (n : Z)
| JString (s : string)
| JArray (items : list json)
| JObject (fields : list (string * json)).

(** Member lookup in a decoded object; of a repeated name the last
    occurrence counts, as in [json.loads]. *)
Fixpoint obj_get (name : string) (fields : list (string * json)) : option json :=
  match fields with
  | [] => None
  | (k, v) :: rest =>
      match obj_get name rest with
      | Some v' => Some v'
      | None => if String.eqb k name then Some v else None
      end
  end.

(** Modelled from the spec: the schema validation FastAPI and pydantic run
    for the parameter [request_body: PromptRequest] (class [PromptRequest]
    with the one field [prompt: str]) is not part of the repository. The
    body is [None] when it is not well-formed JSON; it is accepted when it is
    an object with a member [prompt] that is a JSON string, and rejected
    otherwise. *)
Definition validate_PromptRequest (body : option json) : option PromptRequest :=
  match body with
  | Some (JObject fields) =>
      match obj_get "prompt" fields with
      | Some (JString p) => Some (mkPromptRequest p)
      | _ => None
      end
  | _ => None
  end.

(** Modelled from the spec: the conversion FastAPI applies to the path
    segment for the parameter [item_id: int] is not part of the repository.
    A segment parses as an integer when it is a non-empty run of decimal
    digits with an optional sign in front. *)
Definition parse_item_id (segment : string) : option Z :=
  match segment with
  | EmptyString => None
  | String c rest =>
      if Ascii.eqb c "+"%char then Z.of_uint <$> NilZero.uint_of_string rest
      else if Ascii.eqb c "-"%char then
        (fun d => - Z.of_uint d) <$> NilZero.uint_of_string rest
      else Z.of_uint <$> NilZero.uint_of_string segment
  end.

(** The value the handler receives for [query_param: str = None]. *)
Definition query_value (query_param : option string) : pyval :=
  match query_param with
  | Some s => PyStr s
  | None => PyNone
  end.

(** The requests the application routes. *)
Inductive Request : Type :=
| GET_root
| GET_items (segment : string) (query_param : option string)
| POST_generate (body : option json).

(** What the client gets back: the response of a handler, or the
    validation error the framework produces without calling a handler. *)
Inductive HTTPResponse : Type :=
| HandlerResponse (r : JSONResponse)
| ValidationError422.

Definition http_status (r : HTTPResponse) : Z :=
  match r with
  | HandlerResponse r => status_code r
  | ValidationError422 => 422
  end.

(** A handler that returns a dictionary is answered with status 200. *)
Definition dict_response (d : gmap string pyval) : HTTPResponse :=
  HandlerResponse (mkJSONResponse d 200).

Section Application.

Variable genai : Genai.

(** Modelled from the spec: the routing and validation FastAPI performs for
    the three decorated handlers ([@app.get("/")], [@app.post("/generate")],
    [@app.get("/items/{item_id}")]) is not part of the repository. A request
    that fails validation is answered with the 422 error and no handler is
    called. *)
Definition app (req : Request) : M HTTPResponse :=
  match req with
  | GET_root =>
      let! d := read_root in ret (dict_response d)
  | GET_items segment query_param =>
      match parse_item_id segment with
      | Some item_id =>
          let! d := read_item item_id (query_value query_param) in
          ret (dict_response d)
      | None => ret ValidationError422
      end
  | POST_generate body =>
      match validate_PromptRequest body with
      | Some request_body =>
          let! r := generate_content_endpoint genai request_body in
          ret (HandlerResponse r)
      | None => ret ValidationError422
      end
  end.

(** Requests served one after the other on the same process. *)
Fixpoint serve (reqs : list Request) : M (list HTTPResponse) :=
  match reqs with
  | [] => ret []
  | req :: rest =>
      let! r := app req in
      let! rs := serve rest in
      ret (r :: rs)
  end.

End Application.

(** ** Upstream behaviours used in the examples *)

(** An upstream that answers every prompt with the text [t]. *)
Definition genai_answering (t : string) : Genai :=
  mkGenai (fun _ _ => None)
          (fun _ _ _ => Returned (mkGenerateContentResponse (Returned t))).

(** An upstream whose model constructor raises [e]. *)
Definition genai_failing_init (e : PyExc) : Genai :=
  mkGenai (fun _ _ => Some e)
          (fun _ _ _ => Raised e).

(** An upstream whose [generate_content] raises [e]. *)
Definition genai_failing_call (e : PyExc) : Genai :=
  mkGenai (fun _ _ => None)
          (fun _ _ _ => Raised e).

(** An upstream whose response has no readable [text]. *)
Definition genai_failing_text (e : PyExc) : Genai :=
  mkGenai (fun _ _ => None)
          (fun _ _ _ => Returned (mkGenerateContentResponse (Raised e))).

(** [MemoryError()]: an [Exception] whose [str] is empty. *)
Definition MemoryError : PyExc :=
  {| exc_class := "MemoryError"; exc_is_Exception := true; exc_str := "" |}.

(** [RuntimeError("quota exceeded")]. *)
Definition quota_error : PyExc :=
  {| exc_class := "RuntimeError"; exc_is_Exception := true;
     exc_str := "quota exceeded" |}.

(** A process that has just started: nothing configured, nothing called. *)
Definition fresh_world (env file : gmap string string) : World :=
  mkWorld env file None [] [] [].
(** ** Notions used in the statements *)

(** The fixed reply of GET /. *)
Definition root_payload : gmap string pyval :=
  {[ "message" := PyStr "Hello from FastAPI Backend! Gemini is ready." ]}.

(** The dictionary [read_item] builds before it looks at [query_param]. *)
Definition item_base (item_id : Z) : gmap string pyval :=
  {[ "item_id" := PyInt item_id;
     "description" := PyStr ("This is item number " +:+ py_str_int item_id) ]}.

(** The model every request names. *)
Definition gemini_model : string := "gemini-2.5-flash".

(** The exception [e] is raised inside the [try] block of
    [generate_content_endpoint] for the body [rb], in world [w]: by the
    model constructor, by [generate_content], or by reading [text]. *)
Inductive raised_in_try (genai : Genai) (w : World) (rb : PromptRequest)
  : PyExc -> Prop :=
| raised_by_construction e :
    GenerativeModel_init genai (genai_calls w) gemini_model = Some e ->
    raised_in_try genai w rb e
| raised_by_invocation e :
    GenerativeModel_init genai (genai_calls w) gemini_model = None ->
    generate_content genai (genai_calls w ++ [Call_GenerativeModel gemini_model])
      (mkGenerativeModel gemini_model) (prompt rb) = Raised e ->
    raised_in_try genai w rb e
| raised_by_text response e :
    GenerativeModel_init genai (genai_calls w) gemini_model = None ->
    generate_content genai (genai_calls w ++ [Call_GenerativeModel gemini_model])
      (mkGenerativeModel gemini_model) (prompt rb) = Returned response ->
    text response = Raised e ->
    raised_in_try genai w rb e.

(** The world after the constructor call, and after both upstream calls. *)
Definition after_construction (w : World) : World :=
  log_genai_call (Call_GenerativeModel gemini_model) w.

Definition after_invocation (p : string) (w : World) : World :=
  log_genai_call (Call_generate_content gemini_model p) (after_construction w).

(** How often [genai.configure] was called. *)
Fixpoint count_configure (calls : list GenaiCall) : nat :=
  match calls with
  | [] => 0%nat
  | Call_configure _ :: rest => S (count_configure rest)
  | _ :: rest => count_configure rest
  end.

(** The value of [GEMINI_API_KEY] the module sees once [load_dotenv] has
    run: the one of the process environment, else the one of the .env file. *)
Definition effective_key (w : World) : option string :=
  (os_environ w ∪ dotenv_file w) !! GEMINI_API_KEY.

(** The world after [load_dotenv]. *)
Definition after_dotenv (w : World) : World :=
  set_os_environ (os_environ w ∪ dotenv_file w) w.


(** A decimal digit. *)
Definition is_digit (c : ascii) : bool :=
  (Ascii.leb "0" c && Ascii.leb c "9")%char.

Fixpoint all_digits (s : string) : bool :=
  match s with
  | EmptyString => true
  | String c rest => is_digit c && all_digits rest
  end.

(** The canonical decimal spelling of an integer: ["0"], or a non-empty run
    of digits that does not start with ["0"], with ["-"] in front of the
    latter for a negative number. No ["+"], no leading zeros, no ["-0"]. *)
Definition canonical_decimal (s : string) : bool :=
  match s with
  | EmptyString => false
  | String c rest =>
      if Ascii.eqb c "-" then
        match rest with
        | EmptyString => false
        | String c' _ => all_digits rest && negb (Ascii.eqb c' "0")
        end
      else all_digits s && (negb (Ascii.eqb c "0") || String.eqb rest "")
  end.

(** The value of a decimal digit: its distance from the character ["0"],
    for the ten characters from ["0"] to ["9"]. *)
Definition digit_value (c : ascii) : option Z :=
  if is_digit c
  then Some (Z.of_N (N_of_ascii c) - Z.of_N (N_of_ascii "0"))
  else None.

(** The number a run of digits spells after the digits already read gave
    [acc]: each further digit multiplies by ten and adds. *)
Fixpoint digits_value (acc : Z) (s : string) : option Z :=
  match s with
  | EmptyString => Some acc
  | String c rest =>
      match digit_value c with
      | Some v => digits_value (10 * acc + v) rest
      | None => None
      end
  end.

(** The integer a decimal numeral spells: a non-empty run of digits, with
    an optional ["-"] in front. *)
Definition decimal_value (s : string) : option Z :=
  match s with
  | EmptyString => None
  | String c rest =>
      if Ascii.eqb c "-" then
        match rest with
        | EmptyString => None
        | _ => Z.opp <$> digits_value 0 rest
        end
      else digits_value 0 s
  end.

(** * Properties *)

(** ** Rendering and parsing of integers *)

Example py_str_int_zero : py_str_int 0 = "0".
Proof. reflexivity. Qed.

Example py_str_int_positive : py_str_int 42 = "42".
Proof. reflexivity. Qed.

Example py_str_int_negative : py_str_int (-7) = "-7".
Proof. reflexivity. Qed.

(** The rendering is a numeral that reads back as the same number. *)
Lemma int_of_string_py_str_int (n : Z) :
  NilZero.int_of_string (py_str_int n) = Some (Z.to_int n).
Proof.
  unfold py_str_int.
  apply NilZero.isi; destruct n; simpl; try discriminate;
    intros [= E]; revert E; apply Unsigned.to_uint_nonnil.
Qed.

(** Different integers render differently. *)
Lemma py_str_int_inj (n m : Z) : py_str_int n = py_str_int m -> n = m.
Proof.
  intros H. apply DecimalZ.to_int_inj.
  pose proof (int_of_string_py_str_int n) as Hn.
  pose proof (int_of_string_py_str_int m) as Hm.
  rewrite H in Hn. congruence.
Qed.

(** The rendering of a non-empty numeral starts with a digit, so with
    neither sign. *)
Lemma string_of_uint_head (d : Decimal.uint) :
  d <> Decimal.Nil ->
  exists c s, NilZero.string_of_uint d = String c s /\
              Ascii.eqb c "+" = false /\ Ascii.eqb c "-" = false.
Proof.
  destruct d; [congruence | ..]; intros _; simpl; eauto.
Qed.

Lemma of_uint_to_uint (p : positive) : Z.of_uint (Pos.to_uint p) = Z.pos p.
Proof. unfold Z.of_uint. now rewrite Unsigned.of_to. Qed.

(** Every integer is reached through the path: the rendering of [n] parses
    back to [n]. *)
Lemma parse_item_id_py_str_int (n : Z) : parse_item_id (py_str_int n) = Some n.
Proof.
  destruct n as [|p|p]; [reflexivity | ..]; unfold py_str_int; simpl.
  - destruct (string_of_uint_head (Pos.to_uint p)) as (c & s & E & Hplus & Hminus);
      [apply Unsigned.to_uint_nonnil|].
    unfold parse_item_id. rewrite E, Hplus, Hminus, <- E.
    rewrite NilZero.usu by apply Unsigned.to_uint_nonnil.
    simpl. now rewrite of_uint_to_uint.
  - rewrite NilZero.usu by apply Unsigned.to_uint_nonnil.
    simpl. now rewrite of_uint_to_uint.
Qed.

Example parse_item_id_abc : parse_item_id "abc" = None.
Proof. reflexivity. Qed.

Example parse_item_id_signed :
  parse_item_id "+5" = Some 5 /\ parse_item_id "-12" = Some (-12) /\
  parse_item_id "007" = Some 7 /\ parse_item_id "+-5" = None /\
  parse_item_id "-" = None /\ parse_item_id "1.5" = None.
Proof. repeat split; reflexivity. Qed.

(** ** The decimal spelling [py_str_int] produces *)

Lemma all_digits_string_of_uint (d : Decimal.uint) :
  all_digits (NilEmpty.string_of_uint d) = true.
Proof. induction d; simpl; auto. Qed.

(** Evaluate [digit_value] at the literal character in the goal. *)
Ltac eval_digit :=
  match goal with
  | |- context [digit_value ?c] =>
      let v := eval vm_compute in (digit_value c) in
      change (digit_value c) with v; cbv iota
  end.

Lemma digits_value_of_uint_acc (d : Decimal.uint) (acc : positive) :
  digits_value (Z.pos acc) (NilEmpty.string_of_uint d)
    = Some (Z.pos (Pos.of_uint_acc d acc)).
Proof.
  revert acc. induction d; intros acc; cbn [NilEmpty.string_of_uint
    digits_value Pos.of_uint_acc]; [reflexivity|..]; eval_digit;
    match goal with
    | |- digits_value ?a _ = Some (Z.pos (Pos.of_uint_acc _ ?b)) =>
        replace a with (Z.pos b) by lia
    end; apply IHd.
Qed.

Lemma digits_value_of_uint (d : Decimal.uint) :
  digits_value 0 (NilEmpty.string_of_uint d) = Some (Z.of_N (Pos.of_uint d)).
Proof.
  induction d; cbn [NilEmpty.string_of_uint digits_value Pos.of_uint];
    [reflexivity | ..]; eval_digit; [exact IHd | ..];
    cbn [Z.of_N]; apply (digits_value_of_uint_acc d).
Qed.

(** The numeral of a positive number does not start with a zero. *)
Lemma to_uint_no_leading_zero (p : positive) (d : Decimal.uint) :
  Pos.to_uint p <> Decimal.D0 d.
Proof.
  intros E.
  assert (Hnorm : Decimal.unorm (Pos.to_uint p) = Pos.to_uint p).
  { rewrite <- Unsigned.to_of, Unsigned.of_to. reflexivity. }
  rewrite E, DecimalFacts.unorm_D0 in Hnorm.
  destruct (Decimal.uint_eq_dec d Decimal.Nil) as [->|Hd].
  - now apply (Unsigned.to_uint_nonzero p).
  - pose proof (DecimalFacts.nb_digits_unorm d Hd) as Hlen.
    rewrite Hnorm in Hlen. simpl in Hlen. lia.
Qed.

(** The numeral of a positive number, as a string: digits only, the first
    of them neither a zero nor a sign. *)
Lemma string_of_to_uint (p : positive) :
  exists c s,
    NilZero.string_of_uint (Pos.to_uint p) = String c s /\
    NilEmpty.string_of_uint (Pos.to_uint p) = String c s /\
    Ascii.eqb c "-" = false /\ Ascii.eqb c "0" = false /\
    all_digits (String c s) = true.
Proof.
  pose proof (all_digits_string_of_uint (Pos.to_uint p)) as Hall.
  pose proof (to_uint_no_leading_zero p) as Hzero.
  pose proof (Unsigned.to_uint_nonnil p) as Hnil.
  destruct (Pos.to_uint p) as [|d|d|d|d|d|d|d|d|d|d];
    [congruence | now destruct (Hzero d) | ..];
    do 2 eexists; (split; [reflexivity|]); (split; [reflexivity|]);
    repeat split; exact Hall.
Qed.

(** [py_str_int] writes the canonical spelling. *)
Lemma canonical_decimal_py_str_int (n : Z) :
  canonical_decimal (py_str_int n) = true.
Proof.
  destruct n as [|p|p]; [reflexivity|..]; unfold py_str_int;
    cbn [Z.to_int NilZero.string_of_int];
    destruct (string_of_to_uint p) as (c & s & E & _ & Hminus & Hzero & Hall);
    rewrite E; unfold canonical_decimal.
  - rewrite Hminus, Hall, Hzero. reflexivity.
  - cbn [Ascii.eqb Bool.eqb]. rewrite Hall, Hzero. reflexivity.
Qed.

(** What [py_str_int] writes spells the number it was given. *)
Lemma decimal_value_py_str_int (n : Z) : decimal_value (py_str_int n) = Some n.
Proof.
  destruct n as [|p|p]; [reflexivity|..]; unfold py_str_int;
    cbn [Z.to_int NilZero.string_of_int];
    destruct (string_of_to_uint p) as (c & s & E & E' & Hminus & _ & _);
    pose proof (digits_value_of_uint (Pos.to_uint p)) as Hval;
    rewrite Unsigned.of_to, E' in Hval; rewrite E; unfold decimal_value.
  - rewrite Hminus. exact Hval.
  - cbn [Ascii.eqb Bool.eqb]. rewrite Hval. reflexivity.
Qed.

Example decimal_value_examples :
  decimal_value "42" = Some 42 /\ decimal_value "-7" = Some (-7) /\
  decimal_value "0" = Some 0 /\ decimal_value "" = None /\
  decimal_value "-" = None /\ decimal_value "4x" = None /\
  canonical_decimal "42" = true /\ canonical_decimal "-7" = true /\
  canonical_decimal "0" = true /\ canonical_decimal "042" = false /\
  canonical_decimal "-0" = false /\ canonical_decimal "+42" = false /\
  canonical_decimal "" = false.
Proof. repeat split; reflexivity. Qed.

(** ** GET / *)

Lemma read_root_pure (w : World) : read_root w = (Returned root_payload, w).
Proof. reflexivity. Qed.

Lemma app_root (genai : Genai) (w : World) :
  app genai GET_root w = (Returned (dict_response root_payload), w).
Proof. reflexivity. Qed.

(** C8: GET / answers 200 with the fixed message whatever the world is,
    leaves the world as it found it and never raises; after any two request
    histories, under any upstream behaviour, the answers are the same. *)
Theorem read_root_constant (genai : Genai) (h1 h2 : list Request) (w w1 w2 : World) :
  read_root w = (Returned root_payload, w) /\
  app genai GET_root w =
    (Returned (HandlerResponse (mkJSONResponse root_payload 200)), w) /\
  http_status (dict_response root_payload) = 200 /\
  root_payload !! "message"
    = Some (PyStr "Hello from FastAPI Backend! Gemini is ready.") /\
  dom root_payload = ({[ "message" ]} : gset string) /\
  fst (app genai GET_root (snd (serve genai h1 w1)))
    = fst (app genai GET_root (snd (serve genai h2 w2))).
Proof.
  split; [apply read_root_pure|]. split; [apply app_root|].
  split; [reflexivity|]. split; [apply lookup_singleton_eq|].
  split; [apply dom_singleton_L|].
  now rewrite !app_root.
Qed.

(** ** GET /items/{item_id} *)

Lemma read_item_unfold (item_id : Z) (q : pyval) (w : World) :
  read_item item_id q w =
    (Returned (if py_truthy q then <[ "query_param" := q ]> (item_base item_id)
               else item_base item_id), w).
Proof. reflexivity. Qed.

Lemma item_base_description (item_id : Z) :
  item_base item_id !! "description"
    = Some (PyStr ("This is item number " +:+ py_str_int item_id)).
Proof. unfold item_base. now simplify_map_eq. Qed.

Lemma item_base_item_id (item_id : Z) :
  item_base item_id !! "item_id" = Some (PyInt item_id).
Proof. unfold item_base. now simplify_map_eq. Qed.

Lemma item_base_query_param (item_id : Z) :
  item_base item_id !! "query_param" = None.
Proof. unfold item_base. now simplify_map_eq. Qed.

Lemma item_base_dom (item_id : Z) :
  dom (item_base item_id) = ({[ "item_id"; "description" ]} : gset string).
Proof. unfold item_base. now rewrite dom_insert_L, dom_singleton_L. Qed.

Lemma py_truthy_str (s : string) : py_truthy (PyStr s) = bool_decide (s <> "").
Proof.
  simpl. destruct (String.eqb_spec s "") as [->|Hne].
  - now rewrite bool_decide_eq_false_2 by auto.
  - now rewrite bool_decide_eq_true_2.
Qed.

(** C4: for every integer [item_id], [read_item] returns a dictionary whose
    [description] is "This is item number " followed by [item_id] formatted
    in decimal: the digits appended are the canonical decimal numeral (no
    leading zeros, no plus sign, a minus sign for negatives) whose value is
    [item_id]. The handler leaves the world unchanged. *)
Theorem read_item_description (item_id : Z) (query_param : pyval) (w : World) :
  exists (d : gmap string pyval) (digits : string),
    read_item item_id query_param w = (Returned d, w) /\
    d !! "description" = Some (PyStr ("This is item number " +:+ digits)) /\
    digits = py_str_int item_id /\
    canonical_decimal digits = true /\
    decimal_value digits = Some item_id.
Proof.
  rewrite read_item_unfold.
  eexists; exists (py_str_int item_id). split; [reflexivity|].
  split; [|split; [reflexivity|split]].
  - destruct (py_truthy query_param).
    + rewrite lookup_insert_ne by discriminate. apply item_base_description.
    + apply item_base_description.
  - apply canonical_decimal_py_str_int.
  - apply decimal_value_py_str_int.
Qed.

Lemma read_item_description_witness :
  (exists d : gmap string pyval,
      read_item (-3) (PyStr "x") (fresh_world ∅ ∅) = (Returned d, fresh_world ∅ ∅) /\
      d !! "description" = Some (PyStr "This is item number -3")) /\
  (exists d : gmap string pyval,
      read_item 120 PyNone (fresh_world ∅ ∅) = (Returned d, fresh_world ∅ ∅) /\
      d !! "description" = Some (PyStr "This is item number 120")) /\
  (exists d : gmap string pyval,
      read_item 0 PyNone (fresh_world ∅ ∅) = (Returned d, fresh_world ∅ ∅) /\
      d !! "description" = Some (PyStr "This is item number 0")).
Proof.
  split; [|split].
  - destruct (read_item_description (-3) (PyStr "x") (fresh_world ∅ ∅))
      as (d & digits & Hret & Hdesc & Hdigits & _).
    exists d. split; [exact Hret|]. rewrite Hdesc, Hdigits. reflexivity.
  - destruct (read_item_description 120 PyNone (fresh_world ∅ ∅))
      as (d & digits & Hret & Hdesc & Hdigits & _).
    exists d. split; [exact Hret|]. rewrite Hdesc, Hdigits. reflexivity.
  - destruct (read_item_description 0 PyNone (fresh_world ∅ ∅))
      as (d & digits & Hret & Hdesc & Hdigits & _).
    exists d. split; [exact Hret|]. rewrite Hdesc, Hdigits. reflexivity.
Defined.

Example description_examples :
  (exists d : gmap string pyval,
      fst (read_item 7 PyNone (fresh_world ∅ ∅)) = Returned d /\
      d !! "description" = Some (PyStr "This is item number 7")) /\
  (exists d : gmap string pyval,
      fst (read_item (-3) (PyStr "x") (fresh_world ∅ ∅)) = Returned d /\
      d !! "description" = Some (PyStr "This is item number -3")).
Proof.
  split; rewrite read_item_unfold; simpl; eexists; (split; [reflexivity|]).
  - apply item_base_description.
  - rewrite lookup_insert_ne by discriminate. apply item_base_description.
Qed.

(** C3: a non-empty [X] given as [query_param] is echoed unchanged under the
    key [query_param]; when the parameter is omitted, or given as the empty
    string, the key is absent; the key never carries [None] or the empty
    string. *)
Theorem read_item_query_param (item_id : Z) (X : string) (w : World) :
  exists d_X d_omitted : gmap string pyval,
    read_item item_id (PyStr X) w = (Returned d_X, w) /\
    read_item item_id PyNone w = (Returned d_omitted, w) /\
    d_X !! "query_param" = (if decide (X = "") then None else Some (PyStr X)) /\
    d_omitted !! "query_param" = None /\
    d_X !! "query_param" <> Some PyNone /\
    d_X !! "query_param" <> Some (PyStr "") /\
    d_omitted !! "query_param" <> Some PyNone /\
    d_omitted !! "query_param" <> Some (PyStr "").
Proof.
  rewrite !read_item_unfold, py_truthy_str. simpl.
  do 2 eexists. split; [reflexivity|]. split; [reflexivity|].
  rewrite item_base_query_param.
  destruct (decide (X = "")) as [->|Hne].
  - rewrite bool_decide_eq_false_2 by auto.
    rewrite item_base_query_param. repeat split; discriminate.
  - rewrite bool_decide_eq_true_2 by auto.
    rewrite lookup_insert_eq. repeat split; congruence.
Qed.

(** C10: for every integer [item_id] the keys of the dictionary are
    [item_id] and [description], together with [query_param] exactly when
    the parameter is truthy, and the value under [item_id] is the path
    parameter itself. *)
Theorem read_item_keys (item_id : Z) (query_param : pyval) (w : World) :
  exists d : gmap string pyval,
    read_item item_id query_param w = (Returned d, w) /\
    dom d = ({[ "item_id"; "description" ]} : gset string)
            ∪ (if py_truthy query_param then {[ "query_param" ]} else ∅) /\
    d !! "item_id" = Some (PyInt item_id).
Proof.
  rewrite read_item_unfold. eexists; split; [reflexivity|].
  destruct (py_truthy query_param).
  - rewrite dom_insert_L, item_base_dom, lookup_insert_ne by discriminate.
    split; [set_solver | apply item_base_item_id].
  - rewrite item_base_dom. split; [set_solver | apply item_base_item_id].
Qed.

(** ** POST /generate *)

Section Generate.

Variable genai : Genai.

(** What the [try] block does, by the behaviour of the upstream. *)
Lemma generate_content_try_unfold (rb : PromptRequest) (w : World) :
  generate_content_try genai rb w =
    match GenerativeModel_init genai (genai_calls w) gemini_model with
    | Some e => (Raised e, after_construction w)
    | None =>
        match generate_content genai (genai_calls (after_construction w))
                (mkGenerativeModel gemini_model) (prompt rb) with
        | Raised e => (Raised e, after_invocation (prompt rb) w)
        | Returned response =>
            match text response with
            | Raised e => (Raised e, after_invocation (prompt rb) w)
            | Returned t =>
                (Returned (mkJSONResponse {[ "text" := PyStr t ]} 200),
                 after_invocation (prompt rb) w)
            end
        end
    end.
Proof.
  unfold generate_content_try, bind, genai_GenerativeModel,
    model_generate_content, response_text, ret, after_invocation,
    after_construction, gemini_model.
  destruct (GenerativeModel_init genai (genai_calls w) "gemini-2.5-flash");
    [reflexivity|].
  simpl.
  destruct (generate_content genai _ _ _) as [response|e]; [|reflexivity].
  destruct (text response); reflexivity.
Qed.

(** [raised_in_try] is exactly: the [try] block ends by raising. *)
Lemma raised_in_try_iff (rb : PromptRequest) (w : World) (e : PyExc) :
  raised_in_try genai w rb e <->
  fst (generate_content_try genai rb w) = Raised e.
Proof.
  rewrite generate_content_try_unfold. split.
  - intros [e' H | e' H1 H2 | response e' H1 H2 H3]; rewrite ?H, ?H1; simpl;
      try rewrite H2; simpl; try rewrite H3; reflexivity.
  - destruct (GenerativeModel_init genai (genai_calls w) gemini_model)
      as [e0|] eqn:Hinit; simpl.
    + intros [= ->]. now apply raised_by_construction.
    + destruct (generate_content genai _ _ _) as [response|e0] eqn:Hgen; simpl.
      * destruct (text response) as [t|e0] eqn:Htext; simpl; [discriminate|].
        intros [= ->]. now apply raised_by_text with response.
      * intros [= ->]. now apply raised_by_invocation.
Qed.

(** The world an exception leaves behind only differs by the logged calls. *)
Lemma generate_content_try_world (rb : PromptRequest) (w : World) :
  snd (generate_content_try genai rb w) = after_construction w \/
  snd (generate_content_try genai rb w) = after_invocation (prompt rb) w.
Proof.
  rewrite generate_content_try_unfold.
  destruct (GenerativeModel_init genai _ _); [now left|].
  destruct (generate_content genai _ _ _) as [response|]; [|now right].
  destruct (text response); now right.
Qed.

(** Every outcome of the handler has one of three shapes: a 200 response
    with the single key [text], a 500 response with the single key [error],
    or an exception that is not an [Exception] and passes through. *)
Lemma generate_content_endpoint_shape (rb : PromptRequest) (w : World) :
  (exists t, fst (generate_content_endpoint genai rb w)
             = Returned (mkJSONResponse {[ "text" := PyStr t ]} 200)) \/
  (exists e, raised_in_try genai w rb e /\ exc_is_Exception e = true /\
             fst (generate_content_endpoint genai rb w)
             = Returned (mkJSONResponse {[ "error" := PyStr (exc_str e) ]} 500)) \/
  (exists e, raised_in_try genai w rb e /\ exc_is_Exception e = false /\
             fst (generate_content_endpoint genai rb w) = Raised e).
Proof.
  unfold generate_content_endpoint, try_except_Exception.
  pose proof (raised_in_try_iff rb w) as Hiff.
  destruct (generate_content_try genai rb w) as [[r|e] w'] eqn:Htry.
  - left. rewrite generate_content_try_unfold in Htry.
    destruct (GenerativeModel_init genai _ _); [discriminate|].
    destruct (generate_content genai _ _ _) as [response|]; [|discriminate].
    destruct (text response) as [t|]; [|discriminate].
    injection Htry as <- _. now exists t.
  - right. destruct (exc_is_Exception e) eqn:Hexc.
    + left. exists e. split; [now apply Hiff|]. now split.
    + right. exists e. split; [now apply Hiff|]. now split.
Qed.

(** A response carries [text] or [error], never both. *)
Lemma generate_content_endpoint_exclusive (rb : PromptRequest) (w : World)
    (r : JSONResponse) :
  fst (generate_content_endpoint genai rb w) = Returned r ->
  ~ (is_Some (content r !! "text") /\ is_Some (content r !! "error")).
Proof.
  intros Hr [Htext Herror].
  destruct (generate_content_endpoint_shape rb w)
    as [[t H] | [(e & _ & _ & H) | (e & _ & _ & H)]];
    rewrite H in Hr; [| |discriminate]; injection Hr as <-; simpl in *.
  - rewrite lookup_singleton_ne in Herror by discriminate.
    now destruct Herror.
  - rewrite lookup_singleton_ne in Htext by discriminate.
    now destruct Htext.
Qed.

End Generate.

(** The three places an exception can come from, on concrete upstreams. *)
Example generate_failing_construction :
  fst (generate_content_endpoint (genai_failing_init quota_error)
         (mkPromptRequest "hello") (fresh_world ∅ ∅))
    = Returned (mkJSONResponse {[ "error" := PyStr "quota exceeded" ]} 500) /\
  genai_calls (snd (generate_content_endpoint (genai_failing_init quota_error)
                      (mkPromptRequest "hello") (fresh_world ∅ ∅)))
    = [Call_GenerativeModel "gemini-2.5-flash"].
Proof. split; reflexivity. Qed.

Example generate_failing_invocation :
  fst (generate_content_endpoint (genai_failing_call quota_error)
         (mkPromptRequest "hello") (fresh_world ∅ ∅))
    = Returned (mkJSONResponse {[ "error" := PyStr "quota exceeded" ]} 500) /\
  genai_calls (snd (generate_content_endpoint (genai_failing_call quota_error)
                      (mkPromptRequest "hello") (fresh_world ∅ ∅)))
    = [Call_GenerativeModel "gemini-2.5-flash";
       Call_generate_content "gemini-2.5-flash" "hello"].
Proof. split; reflexivity. Qed.

Example generate_unreadable_text :
  fst (generate_content_endpoint (genai_failing_text (ValueError "no valid part"))
         (mkPromptRequest "hello") (fresh_world ∅ ∅))
    = Returned (mkJSONResponse {[ "error" := PyStr "no valid part" ]} 500).
Proof. reflexivity. Qed.

(** Two error bodies are the same response only for the same message. *)
Lemma error_response_inj (m m' : string) (c c' : Z) :
  mkJSONResponse {[ "error" := PyStr m ]} c
    = mkJSONResponse {[ "error" := PyStr m' ]} c' ->
  m = m'.
Proof.
  intros H.
  pose proof (f_equal (fun r => content r !! "error") H) as H'.
  cbv beta in H'. cbn [content] in H'.
  rewrite !lookup_singleton_eq in H'. congruence.
Qed.

(** C1, as the code has it: an exception raised in the [try] block by the
    model constructor, by [generate_content] or by reading [text], and that
    is an instance of [Exception], is caught; the handler returns status 500
    with the body {"error": str(e)}, whose only key is [error] (so no [text]
    key and nothing of the upstream response). No response of the handler
    carries both [text] and [error]. *)
Theorem generate_error_response (genai : Genai) (rb : PromptRequest)
    (w : World) (e : PyExc) :
  raised_in_try genai w rb e ->
  exc_is_Exception e = true ->
  (exists w',
      generate_content_endpoint genai rb w =
        (Returned (mkJSONResponse {[ "error" := PyStr (exc_str e) ]} 500), w') /\
      (w' = after_construction w \/ w' = after_invocation (prompt rb) w)) /\
  dom ({[ "error" := PyStr (exc_str e) ]} : gmap string pyval)
    = ({[ "error" ]} : gset string) /\
  ({[ "error" := PyStr (exc_str e) ]} : gmap string pyval) !! "text" = None /\
  (forall rb0 w0 r,
      fst (generate_content_endpoint genai rb0 w0) = Returned r ->
      ~ (is_Some (content r !! "text") /\ is_Some (content r !! "error"))).
Proof.
  intros Hraised Hexc.
  apply raised_in_try_iff in Hraised.
  pose proof (generate_content_try_world genai rb w) as Hworld.
  split; [|split; [apply dom_singleton_L|split]].
  - unfold generate_content_endpoint, try_except_Exception.
    destruct (generate_content_try genai rb w) as [[r|e0] w'];
      simpl in Hraised; [discriminate|].
    injection Hraised as ->. rewrite Hexc.
    exists w'. split; [reflexivity | exact Hworld].
  - now rewrite lookup_singleton_ne.
  - apply generate_content_endpoint_exclusive.
Qed.

Lemma generate_error_response_witness :
  exists w',
    generate_content_endpoint (genai_failing_call quota_error)
      (mkPromptRequest "hello") (fresh_world ∅ ∅) =
      (Returned (mkJSONResponse {[ "error" := PyStr "quota exceeded" ]} 500), w').
Proof.
  destruct (generate_error_response (genai_failing_call quota_error)
              (mkPromptRequest "hello") (fresh_world ∅ ∅) quota_error)
    as [(w' & H & _) _].
  - apply raised_by_invocation; reflexivity.
  - reflexivity.
  - exists w'. exact H.
Defined.

(** C1 as stated fails twice. [MemoryError()] is raised by the constructor
    and caught, but its message is empty, so the body is {"error": ""};
    [SystemExit(1)] raised by [generate_content] is not an [Exception], so
    it is not caught and there is no response at all. *)
Lemma generate_error_claim_fails :
  (raised_in_try (genai_failing_init MemoryError) (fresh_world ∅ ∅)
     (mkPromptRequest "hello") MemoryError /\
   ~ (exists m w',
        m <> "" /\
        generate_content_endpoint (genai_failing_init MemoryError)
          (mkPromptRequest "hello") (fresh_world ∅ ∅) =
          (Returned (mkJSONResponse {[ "error" := PyStr m ]} 500), w'))) /\
  (raised_in_try (genai_failing_call SystemExit) (fresh_world ∅ ∅)
     (mkPromptRequest "hello") SystemExit /\
   fst (generate_content_endpoint (genai_failing_call SystemExit)
          (mkPromptRequest "hello") (fresh_world ∅ ∅)) = Raised SystemExit).
Proof.
  split; split.
  - apply raised_by_construction. reflexivity.
  - intros (m & w' & Hm & H).
    assert (Hr : Returned (mkJSONResponse {[ "error" := PyStr "" ]} 500)
                 = Returned (mkJSONResponse {[ "error" := PyStr m ]} 500))
      by exact (f_equal fst H).
    assert (Hj : mkJSONResponse {[ "error" := PyStr "" ]} 500
                 = mkJSONResponse {[ "error" := PyStr m ]} 500)
      by congruence.
    apply error_response_inj in Hj. congruence.
  - apply raised_by_invocation; reflexivity.
  - reflexivity.
Qed.

(** C2: when the constructor for 'gemini-2.5-flash' succeeds,
    [generate_content] on that model with the prompt of the body returns a
    response, and its [text] reads as [t], the handler returns status 200
    with the body {"text": t}. The upstream saw exactly two calls: the
    construction of 'gemini-2.5-flash' and [generate_content] with the
    prompt unchanged. The same holds through the application for the body
    {"prompt": p}. *)
Theorem generate_success_response (genai : Genai) (rb : PromptRequest)
    (w : World) (response : GenerateContentResponse) (t : string) :
  GenerativeModel_init genai (genai_calls w) "gemini-2.5-flash" = None ->
  generate_content genai (genai_calls w ++ [Call_GenerativeModel "gemini-2.5-flash"])
    (mkGenerativeModel "gemini-2.5-flash") (prompt rb) = Returned response ->
  text response = Returned t ->
  generate_content_endpoint genai rb w =
    (Returned (mkJSONResponse {[ "text" := PyStr t ]} 200),
     after_invocation (prompt rb) w) /\
  genai_calls (after_invocation (prompt rb) w) =
    (genai_calls w ++ [Call_GenerativeModel "gemini-2.5-flash";
                       Call_generate_content "gemini-2.5-flash" (prompt rb)])%list /\
  app genai (POST_generate (Some (JObject [("prompt", JString (prompt rb))]))) w =
    (Returned (HandlerResponse (mkJSONResponse {[ "text" := PyStr t ]} 200)),
     after_invocation (prompt rb) w) /\
  status_code (mkJSONResponse {[ "text" := PyStr t ]} 200) = 200.
Proof.
  intros Hinit Hgen Htext.
  assert (Hend : generate_content_endpoint genai rb w =
                 (Returned (mkJSONResponse {[ "text" := PyStr t ]} 200),
                  after_invocation (prompt rb) w)).
  { unfold generate_content_endpoint, try_except_Exception.
    rewrite generate_content_try_unfold.
    change (genai_calls (after_construction w))
      with (genai_calls w ++ [Call_GenerativeModel gemini_model])%list.
    unfold gemini_model.
    rewrite Hinit, Hgen, Htext. reflexivity. }
  split; [exact Hend|]. split.
  - simpl. now rewrite <- app_assoc.
  - split; [|reflexivity].
    unfold app. simpl. destruct rb as [p]. simpl in *.
    unfold bind. now rewrite Hend.
Qed.

Lemma generate_success_response_witness :
  fst (generate_content_endpoint (genai_answering "world")
         (mkPromptRequest "hello") (fresh_world ∅ ∅))
    = Returned (mkJSONResponse {[ "text" := PyStr "world" ]} 200) /\
  fst (app (genai_answering "world")
         (POST_generate (Some (JObject [("prompt", JString "hello")])))
         (fresh_world ∅ ∅))
    = Returned (HandlerResponse (mkJSONResponse {[ "text" := PyStr "world" ]} 200)).
Proof.
  destruct (generate_success_response (genai_answering "world")
              (mkPromptRequest "hello") (fresh_world ∅ ∅)
              (mkGenerateContentResponse (Returned "world")) "world"
              eq_refl eq_refl eq_refl) as (H1 & _ & H3 & _).
  split.
  - exact (f_equal fst H1).
  - exact (f_equal fst H3).
Defined.

(** ** Validation in front of the handlers *)

(** The bodies the schema accepts are the objects with a string [prompt]. *)
Lemma validate_PromptRequest_Some (body : option json) (rb : PromptRequest) :
  validate_PromptRequest body = Some rb <->
  exists fields, body = Some (JObject fields) /\
                 obj_get "prompt" fields = Some (JString (prompt rb)).
Proof.
  split.
  - destruct body as [[| | | | |fields]|]; simpl; try discriminate.
    destruct (obj_get "prompt" fields) as [[| | |p| |]|] eqn:E;
      try discriminate.
    intros [= <-]. now exists fields.
  - intros (fields & -> & E). simpl. rewrite E. now destruct rb.
Qed.

(** C6: a POST /generate request whose body is not well-formed JSON, or is
    JSON without a member [prompt] that is a string, is answered with the
    422 validation error; the world, and with it the record of upstream
    calls, is unchanged, whatever the upstream would have done. *)
Theorem generate_rejects_invalid_body (genai : Genai) (body : option json)
    (w : World) :
  (body = None \/
   exists j, body = Some j /\
             forall fields p, j = JObject fields ->
                              obj_get "prompt" fields <> Some (JString p)) ->
  validate_PromptRequest body = None /\
  app genai (POST_generate body) w = (Returned ValidationError422, w) /\
  http_status ValidationError422 = 422 /\
  genai_calls (snd (app genai (POST_generate body) w)) = genai_calls w.
Proof.
  intros Hbad.
  assert (Hval : validate_PromptRequest body = None).
  { destruct (validate_PromptRequest body) as [rb|] eqn:E; [|reflexivity].
    apply validate_PromptRequest_Some in E as (fields & -> & Hp).
    destruct Hbad as [?|(j & [= <-] & Hno)]; [discriminate|].
    now destruct (Hno fields (prompt rb) eq_refl). }
  unfold app. rewrite Hval. repeat split.
Qed.

Lemma generate_rejects_invalid_body_witness :
  app (genai_answering "world") (POST_generate (Some (JObject []))) (fresh_world ∅ ∅)
    = (Returned ValidationError422, fresh_world ∅ ∅) /\
  app (genai_answering "world")
      (POST_generate (Some (JObject [("prompt", JNumber 5)]))) (fresh_world ∅ ∅)
    = (Returned ValidationError422, fresh_world ∅ ∅) /\
  app (genai_answering "world") (POST_generate None) (fresh_world ∅ ∅)
    = (Returned ValidationError422, fresh_world ∅ ∅).
Proof.
  split; [|split].
  - apply (generate_rejects_invalid_body (genai_answering "world")
             (Some (JObject [])) (fresh_world ∅ ∅)).
    right. eexists. split; [reflexivity|].
    intros fields p [= <-]. discriminate.
  - apply (generate_rejects_invalid_body (genai_answering "world")
             (Some (JObject [("prompt", JNumber 5)])) (fresh_world ∅ ∅)).
    right. eexists. split; [reflexivity|].
    intros fields p [= <-]. discriminate.
  - apply (generate_rejects_invalid_body (genai_answering "world")
             None (fresh_world ∅ ∅)).
    now left.
Defined.

(** C7: a GET /items/{item_id} request whose path segment does not parse as
    an integer is answered with the 422 validation error, and the world is
    unchanged: [read_item] is not called. *)
Theorem items_rejects_non_integer (genai : Genai) (segment : string)
    (query_param : option string) (w : World) :
  parse_item_id segment = None ->
  app genai (GET_items segment query_param) w = (Returned ValidationError422, w) /\
  http_status ValidationError422 = 422.
Proof.
  intros Hparse. unfold app. rewrite Hparse. split; reflexivity.
Qed.

Lemma items_rejects_non_integer_witness :
  app (genai_answering "world") (GET_items "abc" None) (fresh_world ∅ ∅)
    = (Returned ValidationError422, fresh_world ∅ ∅) /\
  http_status ValidationError422 = 422.
Proof.
  apply (items_rejects_non_integer (genai_answering "world") "abc" None
           (fresh_world ∅ ∅)).
  reflexivity.
Defined.

(** A segment that parses reaches [read_item] with the parsed integer. *)
Lemma items_accepts_integer (genai : Genai) (item_id : Z)
    (query_param : option string) (w : World) :
  app genai (GET_items (py_str_int item_id) query_param) w =
    (Returned (dict_response
       (if py_truthy (query_value query_param)
        then <[ "query_param" := query_value query_param ]> (item_base item_id)
        else item_base item_id)), w).
Proof.
  unfold app. rewrite parse_item_id_py_str_int.
  unfold bind. now rewrite read_item_unfold.
Qed.

(** ** Start-up *)

Lemma count_configure_app (l1 l2 : list GenaiCall) :
  count_configure (l1 ++ l2) = (count_configure l1 + count_configure l2)%nat.
Proof.
  induction l1 as [|c l1 IH]; [reflexivity|].
  destruct c; simpl; now rewrite IH.
Qed.

(** The variable is unset for the module exactly when neither the process
    environment nor the .env file has it. *)
Lemma effective_key_None (w : World) :
  effective_key w = None <->
  os_environ w !! GEMINI_API_KEY = None /\ dotenv_file w !! GEMINI_API_KEY = None.
Proof. unfold effective_key. apply lookup_union_None. Qed.

(** A value in the process environment is the one the module sees. *)
Lemma effective_key_environ (w : World) (k : string) :
  os_environ w !! GEMINI_API_KEY = Some k -> effective_key w = Some k.
Proof. unfold effective_key. apply lookup_union_Some_l. Qed.

(** The module body when the key is missing or empty: it prints the error
    line and raises [ValueError]; nothing is configured, [uvicorn.run] is not
    reached. *)
Lemma module_body_aborts (name : string) (w : World) :
  effective_key w = None \/ effective_key w = Some "" ->
  module_body name w =
    (Raised (ValueError missing_key_message),
     log_stdout "Error: GEMINI_API_KEY environment variable not set."
       (after_dotenv w)).
Proof.
  unfold effective_key, module_body, configure_gemini, bind, load_dotenv,
    os_environ_get, after_dotenv.
  cbn [os_environ set_os_environ].
  intros [-> | ->]; reflexivity.
Qed.

(** The module body when the key is a non-empty string [k]: the client is
    configured with [k] and the success line is printed; an imported module
    is then complete, while the main program goes on to [uvicorn.run], which
    ends it with [SystemExit]. *)
Lemma module_body_configures (name : string) (w : World) (k : string) :
  effective_key w = Some k -> k <> "" ->
  module_body name w =
    (let w' := log_stdout "Gemini API is configured successfully."
                 (set_genai_api_key (Some (PyStr k))
                    (log_genai_call (Call_configure (PyStr k)) (after_dotenv w))) in
     if String.eqb name "__main__"
     then (Raised SystemExit,
           log_uvicorn_run (mkUvicornRun "127.0.0.1" 8000 true) w')
     else (Returned tt, w')).
Proof.
  unfold effective_key, module_body, configure_gemini, bind, load_dotenv,
    os_environ_get, after_dotenv.
  cbn [os_environ set_os_environ].
  intros -> Hk. cbn [py_truthy].
  apply String.eqb_neq in Hk. rewrite Hk. cbn [negb].
  unfold genai_configure, print, uvicorn_run, ret.
  now destruct (String.eqb name "__main__").
Qed.

Section Requests.

Variable genai : Genai.

(** No request touches the configured key, adds a [configure] call, or
    changes the environment. *)
Lemma app_preserves_configuration (req : Request) (w : World) :
  genai_api_key (snd (app genai req w)) = genai_api_key w /\
  count_configure (genai_calls (snd (app genai req w)))
    = count_configure (genai_calls w) /\
  os_environ (snd (app genai req w)) = os_environ w.
Proof.
  destruct req as [|segment q|body]; simpl.
  - repeat split.
  - destruct (parse_item_id segment); repeat split.
  - destruct (validate_PromptRequest body) as [rb|]; [|repeat split].
    unfold bind, generate_content_endpoint, try_except_Exception.
    pose proof (generate_content_try_world genai rb w) as Hw.
    destruct (generate_content_try genai rb w) as [[r|e] w'];
      simpl in Hw; [|destruct (exc_is_Exception e)]; simpl;
      destruct Hw as [-> | ->]; simpl;
      rewrite ?count_configure_app; simpl; repeat split; lia.
Qed.

Lemma serve_cons (req : Request) (reqs : list Request) (w : World) :
  serve genai (req :: reqs) w =
    match app genai req w with
    | (Returned r, w1) =>
        match serve genai reqs w1 with
        | (Returned rs, w2) => (Returned (r :: rs), w2)
        | (Raised e, w2) => (Raised e, w2)
        end
    | (Raised e, w1) => (Raised e, w1)
    end.
Proof. reflexivity. Qed.

Lemma serve_preserves_configuration (reqs : list Request) (w : World) :
  genai_api_key (snd (serve genai reqs w)) = genai_api_key w /\
  count_configure (genai_calls (snd (serve genai reqs w)))
    = count_configure (genai_calls w) /\
  os_environ (snd (serve genai reqs w)) = os_environ w.
Proof.
  revert w. induction reqs as [|req reqs IH]; intros w; [repeat split|].
  rewrite serve_cons.
  pose proof (app_preserves_configuration req w) as Happ.
  destruct (app genai req w) as [[r|e] w1]; cbn [snd] in Happ; [|exact Happ].
  specialize (IH w1).
  destruct (serve genai reqs w1) as [[rs|e] w2]; cbn [snd] in *;
    destruct Happ as (<- & <- & <-); exact IH.
Qed.

End Requests.

(** What the module body leaves in the record of upstream calls. *)
Lemma module_body_calls (name : string) (w : World) :
  genai_calls (snd (module_body name w)) =
    match effective_key w with
    | Some k => if String.eqb k "" then genai_calls w
                else (genai_calls w ++ [Call_configure (PyStr k)])%list
    | None => genai_calls w
    end.
Proof.
  destruct (effective_key w) as [k|] eqn:Hkey.
  - destruct (String.eqb_spec k "") as [->|Hne].
    + rewrite module_body_aborts by now right. reflexivity.
    + rewrite (module_body_configures name w k Hkey Hne).
      cbn [snd]. now destruct (String.eqb name "__main__").
  - rewrite module_body_aborts by now left. reflexivity.
Qed.

(** C5, as the code has it: when [GEMINI_API_KEY] is unset or empty once
    [load_dotenv] has run, the module body raises [ValueError] with no call
    of [uvicorn.run] and no call into the client. When it is a non-empty
    string [k], the client is configured with [k] by one [configure] call;
    an imported module is then complete, while the main program goes on to
    [uvicorn.run] and ends with [SystemExit]. Whatever requests are served
    on the configured process, the configured key stays [k] and no further
    [configure] call is made. *)
Theorem startup_credential (genai : Genai) (name : string) (w : World)
    (reqs : list Request) :
  (effective_key w = None \/ effective_key w = Some "" ->
   exists w',
     module_body name w = (Raised (ValueError missing_key_message), w') /\
     uvicorn_runs w' = uvicorn_runs w /\
     genai_calls w' = genai_calls w /\
     genai_api_key w' = genai_api_key w) /\
  (forall k,
     effective_key w = Some k -> k <> "" ->
     exists w',
       module_body name w =
         (if String.eqb name "__main__" then Raised SystemExit else Returned tt,
          w') /\
       genai_api_key w' = Some (PyStr k) /\
       genai_calls w' = (genai_calls w ++ [Call_configure (PyStr k)])%list /\
       genai_api_key (snd (serve genai reqs w')) = Some (PyStr k) /\
       count_configure (genai_calls (snd (serve genai reqs w')))
         = S (count_configure (genai_calls w))).
Proof.
  split.
  - intros Hkey. rewrite (module_body_aborts name w Hkey).
    eexists. split; [reflexivity|]. repeat split.
  - intros k Hkey Hne. rewrite (module_body_configures name w k Hkey Hne).
    cbv zeta.
    destruct (String.eqb name "__main__");
      (eexists; split; [reflexivity|]);
      match goal with
      | |- context [serve genai reqs ?w1] =>
          destruct (serve_preserves_configuration genai reqs w1) as (Hk & Hc & _)
      end;
      rewrite Hk, Hc; cbn; rewrite count_configure_app; cbn;
      repeat split; lia.
Qed.

Lemma startup_credential_witness :
  (exists w',
      module_body "__main__" (fresh_world ∅ ∅)
        = (Raised (ValueError missing_key_message), w') /\
      uvicorn_runs w' = []) /\
  (exists w',
      module_body "api.index" (fresh_world {[ GEMINI_API_KEY := "k-123" ]} ∅)
        = (Returned tt, w') /\
      genai_calls w' = [Call_configure (PyStr "k-123")] /\
      count_configure
        (genai_calls
           (snd (serve (genai_answering "world")
                   [GET_root; POST_generate (Some (JObject [("prompt", JString "hello")]))]
                   w'))) = 1%nat).
Proof.
  split.
  - destruct (startup_credential (genai_answering "world") "__main__"
                (fresh_world ∅ ∅) []) as [Habort _].
    destruct Habort as (w' & H & Hruns & _); [now left|].
    exists w'. split; [exact H | exact Hruns].
  - destruct (startup_credential (genai_answering "world") "api.index"
                (fresh_world {[ GEMINI_API_KEY := "k-123" ]} ∅)
                [GET_root; POST_generate (Some (JObject [("prompt", JString "hello")]))])
      as [_ Hok].
    destruct (Hok "k-123") as (w' & H & _ & Hcalls & _ & Hcount);
      [reflexivity | discriminate |].
    exists w'. split; [exact H|]. split; [exact Hcalls | exact Hcount].
Defined.

(** C5 as stated fails when the variable is set to the empty string: the
    variable is set, yet the module body raises and the client is never
    configured with that value. *)
Lemma startup_claim_fails :
  os_environ (fresh_world {[ GEMINI_API_KEY := "" ]} ∅) !! GEMINI_API_KEY
    = Some "" /\
  exists w',
    module_body "__main__" (fresh_world {[ GEMINI_API_KEY := "" ]} ∅)
      = (Raised (ValueError missing_key_message), w') /\
    genai_calls w' = [] /\
    genai_api_key w' = None.
Proof.
  split; [reflexivity|].
  rewrite module_body_aborts by (right; reflexivity).
  eexists. split; [reflexivity|]. split; reflexivity.
Qed.

(** A key that is only in the .env file is enough: the process environment
    does not have the variable, and the module body still configures the
    client. *)
Lemma startup_key_from_dotenv :
  os_environ (fresh_world ∅ {[ GEMINI_API_KEY := "secret" ]}) !! GEMINI_API_KEY
    = None /\
  exists w',
    module_body "api.index" (fresh_world ∅ {[ GEMINI_API_KEY := "secret" ]})
      = (Returned tt, w') /\
    genai_api_key w' = Some (PyStr "secret").
Proof.
  split; [reflexivity|].
  rewrite (module_body_configures _ _ "secret") by (reflexivity || discriminate).
  eexists. split; reflexivity.
Qed.

(** C9: when [GEMINI_API_KEY] is set to the empty string in the process
    environment, the module body raises the same [ValueError] as when the
    variable is unset, without configuring the client and without calling
    [uvicorn.run]; and no run of the module body configures the client with
    the empty string. *)
Theorem startup_empty_key (name : string) (w w0 : World) :
  os_environ w !! GEMINI_API_KEY = Some "" ->
  (exists w',
      module_body name w = (Raised (ValueError missing_key_message), w') /\
      genai_calls w' = genai_calls w /\
      genai_api_key w' = genai_api_key w /\
      uvicorn_runs w' = uvicorn_runs w) /\
  (effective_key w0 = None ->
   fst (module_body name w) = fst (module_body name w0)) /\
  (forall name1 w1,
      Call_configure (PyStr "") ∉ genai_calls w1 ->
      Call_configure (PyStr "") ∉ genai_calls (snd (module_body name1 w1))).
Proof.
  intros Hempty. apply effective_key_environ in Hempty.
  rewrite (module_body_aborts name w) by now right.
  split; [|split].
  - eexists. split; [reflexivity|]. repeat split.
  - intros Hunset. now rewrite (module_body_aborts name w0) by now left.
  - intros name1 w1 Hnot. rewrite module_body_calls.
    destruct (effective_key w1) as [k|]; [|exact Hnot].
    destruct (String.eqb_spec k "") as [->|Hne]; [exact Hnot|].
    rewrite not_elem_of_app. split; [exact Hnot|].
    rewrite list_elem_of_singleton. congruence.
Qed.

Lemma startup_empty_key_witness :
  exists w',
    module_body "__main__" (fresh_world {[ GEMINI_API_KEY := "" ]} ∅)
      = (Raised (ValueError missing_key_message), w') /\
    genai_calls w' = [] /\
    fst (module_body "__main__" (fresh_world {[ GEMINI_API_KEY := "" ]} ∅))
      = fst (module_body "__main__" (fresh_world ∅ ∅)).
Proof.
  destruct (startup_empty_key "__main__"
              (fresh_world {[ GEMINI_API_KEY := "" ]} ∅) (fresh_world ∅ ∅))
    as ((w' & H & Hcalls & _) & Hsame & _); [reflexivity|].
  exists w'. split; [exact H|]. split; [exact Hcalls|].
  apply Hsame. reflexivity.
Defined.

(** * Further properties of the module *)

(** ** Start-up: what is printed, and when the server is started *)

(** The two ways through the module body, by the value of the key it
    sees. With a key, an imported module completes and the main program is
    ended by [uvicorn.run]. *)
Lemma module_body_cases (name : string) (w : World) :
  (exists k, effective_key w = Some k /\ k <> "" /\
             fst (module_body name w)
               = (if String.eqb name "__main__" then Raised SystemExit
                  else Returned tt) /\
             stdout (snd (module_body name w))
               = (stdout w ++ ["Gemini API is configured successfully."])%list /\
             uvicorn_runs (snd (module_body name w))
               = (if String.eqb name "__main__"
                  then (uvicorn_runs w ++ [mkUvicornRun "127.0.0.1" 8000 true])%list
                  else uvicorn_runs w) /\
             genai_api_key (snd (module_body name w)) = Some (PyStr k) /\
             genai_calls (snd (module_body name w))
               = (genai_calls w ++ [Call_configure (PyStr k)])%list) \/
  ((effective_key w = None \/ effective_key w = Some "") /\
   fst (module_body name w) = Raised (ValueError missing_key_message) /\
   stdout (snd (module_body name w))
     = (stdout w ++ ["Error: GEMINI_API_KEY environment variable not set."])%list /\
   uvicorn_runs (snd (module_body name w)) = uvicorn_runs w).
Proof.
  destruct (effective_key w) as [k|] eqn:Hkey.
  - destruct (String.eqb_spec k "") as [->|Hne].
    + right. rewrite module_body_aborts by now right.
      split; [now right|]. repeat split.
    + left. exists k. rewrite (module_body_configures name w k Hkey Hne).
      split; [reflexivity|]. split; [exact Hne|]. cbv zeta.
      destruct (String.eqb name "__main__"); repeat split.
  - right. rewrite module_body_aborts by now left.
    split; [now left|]. repeat split.
Qed.

(** X1: the module body calls [uvicorn.run] only when it runs as
    [__main__] and the key is a non-empty string, and then once, with host
    127.0.0.1, port 8000 and reload on; imported under any other name, or
    with a missing or empty key, it never starts a server. *)
Theorem uvicorn_run_only_as_main (name : string) (w : World) :
  uvicorn_runs (snd (module_body name w)) =
    match effective_key w with
    | Some k =>
        if String.eqb k "" then uvicorn_runs w
        else if String.eqb name "__main__"
             then (uvicorn_runs w ++ [mkUvicornRun "127.0.0.1" 8000 true])%list
             else uvicorn_runs w
    | None => uvicorn_runs w
    end.
Proof.
  destruct (module_body_cases name w)
    as [(k & Hkey & Hne & _ & _ & Hruns & _) | ([Hkey|Hkey] & _ & _ & Hruns)];
    rewrite Hkey, Hruns; [|reflexivity..].
  apply String.eqb_neq in Hne. now rewrite Hne.
Qed.

(** X2: the module body prints exactly one line and ends in one of three
    ways: it raises the [ValueError] after the error line; or, after the
    success line, an imported module completes and the main program is
    ended by the [SystemExit] of [uvicorn.run]. *)
Theorem startup_prints_one_line (name : string) (w : World) :
  (fst (module_body name w) = Raised (ValueError missing_key_message) /\
   stdout (snd (module_body name w))
     = (stdout w ++ ["Error: GEMINI_API_KEY environment variable not set."])%list) \/
  (name <> "__main__" /\
   fst (module_body name w) = Returned tt /\
   stdout (snd (module_body name w))
     = (stdout w ++ ["Gemini API is configured successfully."])%list) \/
  (name = "__main__" /\
   fst (module_body name w) = Raised SystemExit /\
   stdout (snd (module_body name w))
     = (stdout w ++ ["Gemini API is configured successfully."])%list).
Proof.
  destruct (module_body_cases name w)
    as [(k & _ & _ & Hout & Hprint & _) | (_ & Hraise & Hprint & _)].
  - right. destruct (String.eqb_spec name "__main__") as [Hmain|Hmain].
    + right. now repeat split.
    + left. now repeat split.
  - left. now split.
Qed.

(** X3: a key that only the .env file provides is used: when the process
    environment does not have [GEMINI_API_KEY] and the file gives the
    non-empty value [k], the client is configured with [k] by one
    [configure] call; an imported module then completes, the main program
    goes on to [uvicorn.run]. *)
Theorem dotenv_key_configures (name : string) (w : World) (k : string) :
  os_environ w !! GEMINI_API_KEY = None ->
  dotenv_file w !! GEMINI_API_KEY = Some k ->
  k <> "" ->
  fst (module_body name w)
    = (if String.eqb name "__main__" then Raised SystemExit else Returned tt) /\
  genai_api_key (snd (module_body name w)) = Some (PyStr k) /\
  genai_calls (snd (module_body name w))
    = (genai_calls w ++ [Call_configure (PyStr k)])%list.
Proof.
  intros Henv Hfile Hne.
  assert (Hkey : effective_key w = Some k).
  { unfold effective_key. rewrite lookup_union_r by exact Henv. exact Hfile. }
  destruct (module_body_cases name w)
    as [(k' & Hkey' & _ & Hout & _ & _ & Hconf & Hcalls) | (Hbad & _)].
  - rewrite Hkey in Hkey'. injection Hkey' as <-. now repeat split.
  - exfalso. destruct Hbad as [H|H]; rewrite Hkey in H; [discriminate|].
    injection H as ->. now apply Hne.
Qed.

Lemma dotenv_key_configures_witness :
  fst (module_body "api.index" (fresh_world ∅ {[ GEMINI_API_KEY := "secret" ]}))
    = Returned tt /\
  genai_api_key
    (snd (module_body "api.index" (fresh_world ∅ {[ GEMINI_API_KEY := "secret" ]})))
    = Some (PyStr "secret").
Proof.
  destruct (dotenv_key_configures "api.index"
              (fresh_world ∅ {[ GEMINI_API_KEY := "secret" ]}) "secret")
    as (H1 & H2 & _); [reflexivity | reflexivity | discriminate |].
  split; [exact H1 | exact H2].
Defined.

(** X4: a non-empty value in the process environment wins over the .env
    file: the client is configured with the environment's value whatever
    the file says, before an imported module completes or the main program
    goes on to [uvicorn.run]. *)
Theorem environ_key_wins (name : string) (w : World) (k : string) :
  os_environ w !! GEMINI_API_KEY = Some k ->
  k <> "" ->
  fst (module_body name w)
    = (if String.eqb name "__main__" then Raised SystemExit else Returned tt) /\
  genai_api_key (snd (module_body name w)) = Some (PyStr k) /\
  genai_calls (snd (module_body name w))
    = (genai_calls w ++ [Call_configure (PyStr k)])%list.
Proof.
  intros Henv Hne. apply effective_key_environ in Henv.
  destruct (module_body_cases name w)
    as [(k' & Hkey' & _ & Hout & _ & _ & Hconf & Hcalls) | (Hbad & _)].
  - rewrite Henv in Hkey'. injection Hkey' as <-. now repeat split.
  - exfalso. destruct Hbad as [H|H]; rewrite Henv in H; [discriminate|].
    injection H as ->. now apply Hne.
Qed.

Lemma environ_key_wins_witness :
  fst (module_body "__main__"
         (fresh_world {[ GEMINI_API_KEY := "from-env" ]}
                      {[ GEMINI_API_KEY := "from-file" ]}))
    = Raised SystemExit /\
  genai_api_key
    (snd (module_body "__main__"
            (fresh_world {[ GEMINI_API_KEY := "from-env" ]}
                         {[ GEMINI_API_KEY := "from-file" ]})))
    = Some (PyStr "from-env").
Proof.
  destruct (environ_key_wins "__main__"
              (fresh_world {[ GEMINI_API_KEY := "from-env" ]}
                           {[ GEMINI_API_KEY := "from-file" ]}) "from-env")
    as (H1 & H2 & _); [reflexivity | discriminate |].
  split; [exact H1 | exact H2].
Defined.

(** ** POST /generate: what is not caught, and what the upstream sees *)

Lemma Returned_inj {A} (a b : A) : Returned a = Returned b -> a = b.
Proof.
  intros H.
  exact (f_equal (fun o => match o with Returned x => x | Raised _ => a end) H).
Qed.

(** X5: an exception raised in the [try] block that is not an instance of
    [Exception] is not turned into a response: the handler raises it
    unchanged. *)
Theorem base_exception_propagates (genai : Genai) (rb : PromptRequest)
    (w : World) (e : PyExc) :
  raised_in_try genai w rb e ->
  exc_is_Exception e = false ->
  exists w',
    generate_content_endpoint genai rb w = (Raised e, w') /\
    (w' = after_construction w \/ w' = after_invocation (prompt rb) w).
Proof.
  intros Hraised Hexc. apply raised_in_try_iff in Hraised.
  pose proof (generate_content_try_world genai rb w) as Hworld.
  unfold generate_content_endpoint, try_except_Exception.
  destruct (generate_content_try genai rb w) as [[r|e0] w'];
    cbn [fst snd] in *; [discriminate|].
  injection Hraised as ->. rewrite Hexc. now exists w'.
Qed.

Lemma base_exception_propagates_witness :
  exists w',
    generate_content_endpoint (genai_failing_text SystemExit)
      (mkPromptRequest "hello") (fresh_world ∅ ∅) = (Raised SystemExit, w').
Proof.
  destruct (base_exception_propagates (genai_failing_text SystemExit)
              (mkPromptRequest "hello") (fresh_world ∅ ∅) SystemExit)
    as (w' & H & _).
  - apply raised_by_text with (mkGenerateContentResponse (Raised SystemExit));
      reflexivity.
  - reflexivity.
  - exists w'. exact H.
Defined.

(** X6: the status code and the body of a response of the handler go
    together: the status is 200 or 500; it is 200 exactly when the body has
    the key [text], and 500 exactly when it has the key [error]. *)
Theorem generate_status_matches_body (genai : Genai) (rb : PromptRequest)
    (w : World) (r : JSONResponse) :
  fst (generate_content_endpoint genai rb w) = Returned r ->
  (status_code r = 200 \/ status_code r = 500) /\
  (status_code r = 200 <-> is_Some (content r !! "text")) /\
  (status_code r = 500 <-> is_Some (content r !! "error")).
Proof.
  intros Hr.
  destruct (generate_content_endpoint_shape genai rb w)
    as [[t H] | [(e & _ & _ & H) | (e & _ & _ & H)]];
    rewrite H in Hr; [| |discriminate]; apply Returned_inj in Hr; subst r;
    cbn [status_code content].
  - split; [now left|]. split; split; intros H'; try discriminate.
    + rewrite lookup_singleton_eq. eauto.
    + reflexivity.
    + rewrite lookup_singleton_ne in H' by discriminate. now destruct H'.
  - split; [now right|]. split; split; intros H'; try discriminate.
    + rewrite lookup_singleton_ne in H' by discriminate. now destruct H'.
    + rewrite lookup_singleton_eq. eauto.
    + reflexivity.
Qed.

Lemma generate_status_matches_body_witness :
  status_code (mkJSONResponse {[ "error" := PyStr "quota exceeded" ]} 500) = 500 <->
  is_Some (content (mkJSONResponse {[ "error" := PyStr "quota exceeded" ]} 500)
             !! "error").
Proof.
  apply (generate_status_matches_body (genai_failing_call quota_error)
           (mkPromptRequest "hello") (fresh_world ∅ ∅)).
  reflexivity.
Defined.

(** X7: one request makes one constructor call for 'gemini-2.5-flash',
    whatever was called before, followed by one [generate_content] call with
    the prompt of the body unless the constructor raised; the handler calls
    nothing else, prints nothing, and leaves the environment, the configured
    key and the record of [uvicorn.run] as they were. *)
Theorem generate_upstream_calls (genai : Genai) (rb : PromptRequest) (w : World) :
  genai_calls (snd (generate_content_endpoint genai rb w)) =
    (genai_calls w ++
     match GenerativeModel_init genai (genai_calls w) "gemini-2.5-flash" with
     | Some _ => [Call_GenerativeModel "gemini-2.5-flash"]
     | None => [Call_GenerativeModel "gemini-2.5-flash";
                Call_generate_content "gemini-2.5-flash" (prompt rb)]
     end)%list /\
  stdout (snd (generate_content_endpoint genai rb w)) = stdout w /\
  os_environ (snd (generate_content_endpoint genai rb w)) = os_environ w /\
  genai_api_key (snd (generate_content_endpoint genai rb w)) = genai_api_key w /\
  uvicorn_runs (snd (generate_content_endpoint genai rb w)) = uvicorn_runs w.
Proof.
  assert (Hsnd : snd (generate_content_endpoint genai rb w)
                 = snd (generate_content_try genai rb w)).
  { unfold generate_content_endpoint, try_except_Exception.
    destruct (generate_content_try genai rb w) as [[r|e] w']; [reflexivity|].
    now destruct (exc_is_Exception e). }
  rewrite Hsnd, generate_content_try_unfold.
  change gemini_model with "gemini-2.5-flash".
  destruct (GenerativeModel_init genai (genai_calls w) "gemini-2.5-flash").
  - repeat split.
  - assert (Hcalls : genai_calls (after_invocation (prompt rb) w)
                     = (genai_calls w ++
                        [Call_GenerativeModel "gemini-2.5-flash";
                         Call_generate_content "gemini-2.5-flash" (prompt rb)])%list).
    { cbn. now rewrite <- app_assoc. }
    destruct (generate_content genai _ _ _) as [response|];
      [destruct (text response)|]; cbn [snd]; rewrite Hcalls; repeat split.
Qed.

(** X8: the error response carries the message and nothing else of the
    exception: two caught exceptions with the same [str], of whatever class
    and raised at whatever step, under whatever upstream, give the same
    response. *)
Theorem error_response_by_message_only (genai1 genai2 : Genai)
    (rb1 rb2 : PromptRequest) (w1 w2 : World) (e1 e2 : PyExc) :
  raised_in_try genai1 w1 rb1 e1 -> exc_is_Exception e1 = true ->
  raised_in_try genai2 w2 rb2 e2 -> exc_is_Exception e2 = true ->
  exc_str e1 = exc_str e2 ->
  fst (generate_content_endpoint genai1 rb1 w1)
    = fst (generate_content_endpoint genai2 rb2 w2).
Proof.
  intros H1 Hexc1 H2 Hexc2 Hstr.
  apply raised_in_try_iff in H1. apply raised_in_try_iff in H2.
  unfold generate_content_endpoint, try_except_Exception.
  destruct (generate_content_try genai1 rb1 w1) as [[r1|e1'] w1'];
    cbn [fst] in H1; [discriminate|]. injection H1 as ->.
  destruct (generate_content_try genai2 rb2 w2) as [[r2|e2'] w2'];
    cbn [fst] in H2; [discriminate|]. injection H2 as ->.
  rewrite Hexc1, Hexc2. unfold ret. cbn [fst]. now rewrite Hstr.
Qed.

Lemma error_response_by_message_only_witness :
  fst (generate_content_endpoint (genai_failing_init quota_error)
         (mkPromptRequest "hello") (fresh_world ∅ ∅))
    = fst (generate_content_endpoint
             (genai_failing_text (mkExc "ResourceExhausted" true "quota exceeded"))
             (mkPromptRequest "another prompt") (fresh_world ∅ ∅)).
Proof.
  apply (error_response_by_message_only
           (genai_failing_init quota_error)
           (genai_failing_text (mkExc "ResourceExhausted" true "quota exceeded"))
           (mkPromptRequest "hello") (mkPromptRequest "another prompt")
           (fresh_world ∅ ∅) (fresh_world ∅ ∅)
           quota_error (mkExc "ResourceExhausted" true "quota exceeded")).
  - apply raised_by_construction. reflexivity.
  - reflexivity.
  - apply raised_by_text
      with (mkGenerateContentResponse
              (Raised (mkExc "ResourceExhausted" true "quota exceeded")));
      reflexivity.
  - reflexivity.
  - reflexivity.
Defined.

(** ** GET /items/{item_id}: what the response tells about the request *)

(** X9: the description identifies the item: two responses of [read_item]
    with the same [description] were built for the same [item_id]. *)
Theorem description_determines_item_id (i j : Z) (q1 q2 : pyval)
    (w1 w2 : World) (d1 d2 : gmap string pyval) :
  fst (read_item i q1 w1) = Returned d1 ->
  fst (read_item j q2 w2) = Returned d2 ->
  d1 !! "description" = d2 !! "description" ->
  i = j.
Proof.
  rewrite !read_item_unfold. cbn [fst].
  intros H1 H2 Hd. apply Returned_inj in H1, H2. subst d1 d2.
  assert (Hi : forall n q,
             (if py_truthy q then <[ "query_param" := q ]> (item_base n)
              else item_base n) !! "description"
             = Some (PyStr ("This is item number " +:+ py_str_int n))).
  { intros n q. destruct (py_truthy q);
      rewrite ?lookup_insert_ne by discriminate; apply item_base_description. }
  rewrite !Hi in Hd.
  assert (Happ : "This is item number " +:+ py_str_int i
                 = "This is item number " +:+ py_str_int j) by congruence.
  apply (inj (String.app _)) in Happ. now apply py_str_int_inj.
Qed.

Lemma description_determines_item_id_witness : (-12 : Z) = -12.
Proof.
  apply (description_determines_item_id (-12) (-12) PyNone (PyStr "x")
           (fresh_world ∅ ∅) (fresh_world ∅ ∅)
           (item_base (-12)) (<[ "query_param" := PyStr "x" ]> (item_base (-12)))).
  - reflexivity.
  - reflexivity.
  - rewrite lookup_insert_ne by discriminate. reflexivity.
Defined.

(** X10: two calls of [read_item] return the same dictionary exactly when
    they have the same [item_id] and either the same [query_param] or two
    falsy ones: the response separates all requests except that an omitted
    and an empty [query_param] look alike. *)
Theorem read_item_same_response (i j : Z) (q1 q2 : pyval) (w1 w2 : World) :
  fst (read_item i q1 w1) = fst (read_item j q2 w2) <->
  i = j /\ (q1 = q2 \/ (py_truthy q1 = false /\ py_truthy q2 = false)).
Proof.
  rewrite !read_item_unfold. cbn [fst]. split.
  - intros H. apply Returned_inj in H.
    pose proof (f_equal (fun d : gmap string pyval => d !! "item_id") H) as Hid.
    pose proof (f_equal (fun d : gmap string pyval => d !! "query_param") H) as Hq.
    cbv beta in Hid, Hq.
    destruct (py_truthy q1) eqn:T1, (py_truthy q2) eqn:T2;
      rewrite ?lookup_insert_ne in Hid by discriminate;
      rewrite ?lookup_insert_eq, ?item_base_query_param in Hq;
      rewrite !item_base_item_id in Hid;
      try discriminate;
      (split; [congruence|]).
    + left. congruence.
    + now right.
  - intros [-> [-> | [T1 T2]]]; [reflexivity|].
    now rewrite T1, T2.
Qed.
